(** * XLA compiler options: a verified model of [axlearn/common/compiler_options.py]

  The module under study parses a TPU instance type, derives the hardware
  version, overlays hard-coded flag presets and serialises a flag mapping.

  Modelling choices.
  - A Python [str] is a Rocq [string]; its characters are the code points
    0..255.  On that range the class [\d] of Python's [re] is exactly
    ['0'..'9'] and [.] is every character but the line feed.
  - A Python [dict] is an association list in insertion order (the order is
    observable through [xla_flags_from_options]).
  - A raised exception is the [Raise] branch of a result type. *)

From Stdlib Require Import String Ascii List ZArith Bool Arith Lia DecimalString.
Import ListNotations.

Local Open Scope string_scope.

(** ** Exceptions and results *)

(** The three exception classes the module raises.  In the source
  [NotTpuError] is a subclass of [ValueError]; the constructors keep them
  apart so that the class actually raised stays visible. *)
Inductive exn : Type :=
| NotImplementedError (arg : string)
| ValueError (msg : string)
| NotTpuError (msg : string).

Inductive result (A : Type) : Type :=
| Ok (a : A)
| Raise (e : exn).

Arguments Ok {A} a.
Arguments Raise {A} e.

Definition bind {A B : Type} (m : result A) (k : A -> result B) : result B :=
match m with
| Ok a => k a
| Raise e => Raise e
end.

Notation "x <- m ;; k" := (bind m (fun x => k))
(at level 61, m at next level, right associativity).

(** ** Python string primitives *)

Module PyStr.

(** [all p s]: every character of [s] satisfies [p]. *)
Fixpoint all (p : ascii -> bool) (s : string) : bool :=
  match s with
  | EmptyString => true
  | String c s' => p c && all p s'
  end.

(** [str.startswith]: [startswith s pre] is [s.startswith(pre)]. *)
Definition startswith (s pre : string) : bool := prefix pre s.

(** [str.replace(old, new)] for a non-empty [old]: one scan from the left;
    at an occurrence of [old] the scan emits [new] and resumes after the
    occurrence (occurrences do not overlap), elsewhere it copies the
    character.  [skip] counts the characters of the current occurrence
    still to be passed over. *)
Fixpoint replace_scan (old new : string) (skip : nat) (s : string) : string :=
  match s with
  | EmptyString => EmptyString
  | String c rest =>
      match skip with
      | S k => replace_scan old new k rest
      | O =>
          if prefix old s
          then new ++ replace_scan old new (String.length old - 1) rest
          else String c (replace_scan old new 0 rest)
      end
  end.

Definition replace (s old new : string) : string := replace_scan old new 0 s.

(** [s.rsplit(sep, 1)] for a one-character separator: the string is cut at
    the last occurrence of [sep]; without an occurrence the list holds [s]
    alone. *)
Fixpoint rcut (sep : ascii) (s : string) : option (string * string) :=
  match s with
  | EmptyString => None
  | String c rest =>
      match rcut sep rest with
      | Some (h, t) => Some (String c h, t)
      | None => if Ascii.eqb c sep then Some (EmptyString, rest) else None
      end
  end.

Definition rsplit1 (s : string) (sep : ascii) : list string :=
  match rcut sep s with
  | Some (h, t) => [h; t]
  | None => [s]
  end.

(** [sep.join(parts)]. *)
Definition join (sep : string) (parts : list string) : string :=
  String.concat sep parts.

(** [str(n)] for a Python [int]. *)
Definition str_of_int (n : Z) : string := NilZero.string_of_int (Z.to_int n).

(** [repr(s)] for a string of printable characters without quote or
    backslash: the string between single quotes. *)
Definition repr_str (s : string) : string := "'" ++ s ++ "'".

(** [repr(t)] for a tuple of strings with at least two items. *)
Definition repr_tuple (t : list string) : string :=
  "(" ++ join ", " (map repr_str t) ++ ")".

End PyStr.

(** ** Regular expressions (the fragment of Python's [re] the module uses) *)

Module Re.

Inductive regex : Type :=
| Void
| Eps
| Class (p : ascii -> bool)
| Seq (r1 r2 : regex)
| Alt (r1 r2 : regex)
| Star (r : regex).

(** Surface forms. *)
Definition Chr (c : ascii) : regex := Class (Ascii.eqb c).
Definition Opt (r : regex) : regex := Alt r Eps.
Definition Plus (r : regex) : regex := Seq r (Star r).

Fixpoint Lit (s : string) : regex :=
  match s with
  | EmptyString => Eps
  | String c s' => Seq (Chr c) (Lit s')
  end.

(** [.] without DOTALL: anything but the line feed. *)
Definition dot (c : ascii) : bool := negb (Ascii.eqb c "010"%char).

(** [\d] on code points below 256. *)
Definition digit (c : ascii) : bool :=
  ((48 <=? nat_of_ascii c) && (nat_of_ascii c <=? 57))%nat.

(** The language of a regex. *)
Inductive Matches : regex -> string -> Prop :=
| MEps : Matches Eps EmptyString
| MClass p c : p c = true -> Matches (Class p) (String c EmptyString)
| MSeq r1 r2 s1 s2 :
    Matches r1 s1 -> Matches r2 s2 -> Matches (Seq r1 r2) (s1 ++ s2)
| MAltL r1 r2 s : Matches r1 s -> Matches (Alt r1 r2) s
| MAltR r1 r2 s : Matches r2 s -> Matches (Alt r1 r2) s
| MStarNil r : Matches (Star r) EmptyString
| MStarApp r s1 s2 :
    Matches r s1 -> Matches (Star r) s2 -> Matches (Star r) (s1 ++ s2).

(** Matching by derivatives. *)
Fixpoint nullable (r : regex) : bool :=
  match r with
  | Void => false
  | Eps => true
  | Class _ => false
  | Seq r1 r2 => nullable r1 && nullable r2
  | Alt r1 r2 => nullable r1 || nullable r2
  | Star _ => true
  end.

Fixpoint deriv (c : ascii) (r : regex) : regex :=
  match r with
  | Void => Void
  | Eps => Void
  | Class p => if p c then Eps else Void
  | Seq r1 r2 =>
      if nullable r1
      then Alt (Seq (deriv c r1) r2) (deriv c r2)
      else Seq (deriv c r1) r2
  | Alt r1 r2 => Alt (deriv c r1) (deriv c r2)
  | Star r1 => Seq (deriv c r1) (Star r1)
  end.

(** [re.fullmatch(r, s) is not None]. *)
Fixpoint fullmatch (r : regex) (s : string) : bool :=
  match s with
  | EmptyString => nullable r
  | String c s' => fullmatch (deriv c r) s'
  end.

End Re.

(** ** Option mappings *)

(** A flag value: the source stores booleans, strings and integers. *)
Inductive pyval : Type :=
| VBool (b : bool)
| VStr (s : string)
| VInt (n : Z).

(** A [dict] keyed by strings, in insertion order. *)
Definition dict : Type := list (string * pyval).

Fixpoint dict_get (k : string) (d : dict) : option pyval :=
  match d with
  | [] => None
  | (k', v) :: d' => if String.eqb k' k then Some v else dict_get k d'
  end.

(** [d[k] = v]: an existing key keeps its place and takes the new value, a
    new key goes to the end. *)
Fixpoint dict_set (k : string) (v : pyval) (d : dict) : dict :=
  match d with
  | [] => [(k, v)]
  | (k', v') :: d' =>
      if String.eqb k' k then (k', v) :: d' else (k', v') :: dict_set k v d'
  end.

(** [d.update(k1=v1, ...)]: the assignments in the order written. *)
Definition dict_update (d : dict) (kwargs : list (string * pyval)) : dict :=
  fold_left (fun acc kv => dict_set (fst kv) (snd kv) acc) kwargs d.

(** [dict(k1=v1, ...)]. *)
Definition dict_of (kwargs : list (string * pyval)) : dict :=
  dict_update [] kwargs.

Definition keys (d : dict) : list string := map fst d.

(** ** The instance-type parser *)

(** [r"(tpu-)?v.+-\d+"]. *)
Definition tpu_pattern : Re.regex :=
  Re.Seq (Re.Opt (Re.Lit "tpu-"))
    (Re.Seq (Re.Chr "v")
       (Re.Seq (Re.Plus (Re.Class Re.dot))
          (Re.Seq (Re.Chr "-") (Re.Plus (Re.Class Re.digit))))).

(** Truth value of a [str]: false for the empty string only. *)
Definition truthy (s : string) : bool := negb (String.eqb s EmptyString).

Definition infer_tpu_type (instance_type : string) : result string :=
  if negb (truthy instance_type && Re.fullmatch tpu_pattern instance_type)
  then Raise (NotTpuError ("Invalid TPU instance: " ++ instance_type))
  else Ok (PyStr.replace instance_type "tpu-" EmptyString).

Definition _TPU_VERSIONS : list string :=
  ["v3"; "v4"; "v5litepod"; "v5p"; "v6e"].

(** [x in t] for a tuple of strings. *)
Definition str_in (x : string) (t : list string) : bool :=
  existsb (String.eqb x) t.

Definition unknown_version_msg (tpu_version : string) : string :=
  "Unknown TPU version " ++ tpu_version ++ ". Expected one of "
  ++ PyStr.repr_tuple _TPU_VERSIONS.

Definition infer_tpu_version (tpu_type : string) : result string :=
  tpu_type <- infer_tpu_type tpu_type ;;
  let tpu_version := hd EmptyString (PyStr.rsplit1 tpu_type "-") in
  if negb (str_in tpu_version _TPU_VERSIONS)
  then Raise (ValueError (unknown_version_msg tpu_version))
  else Ok tpu_version.

(** ** The option resolver *)

Definition base_options : list (string * pyval) :=
  [ ("xla_tpu_spmd_rng_bit_generator_unsafe", VBool true);
    ("xla_tpu_enable_latency_hiding_scheduler", VStr "true");
    ("xla_tpu_perform_spmd_cse_prevention", VStr "false") ].

Definition v4_options : list (string * pyval) :=
  [ ("xla_enable_async_all_gather", VStr "true");
    ("xla_enable_async_collective_permute", VStr "true") ].

Definition v6e_options : list (string * pyval) :=
  [ ("xla_tpu_scoped_vmem_limit_kib", VStr "98304");
    ("xla_tpu_enable_async_collective_fusion", VStr "true");
    ("xla_tpu_enable_async_collective_fusion_fuse_all_gather", VStr "true");
    ("xla_tpu_enable_async_collective_fusion_multiple_steps", VStr "true");
    ("xla_tpu_overlap_compute_collective_tc", VStr "true");
    ("xla_enable_async_all_gather", VStr "true");
    ("xla_tpu_enable_all_experimental_scheduler_features", VStr "true");
    ("xla_tpu_enable_scheduler_memory_pressure_tracking", VStr "ENABLED");
    ("xla_tpu_host_transfer_overlap_limit", VInt 24);
    ("xla_tpu_aggressive_opt_barrier_removal", VStr "ENABLED");
    ("xla_lhs_prioritize_async_depth_over_stall", VStr "ENABLED");
    ("xla_tpu_enable_ag_backward_pipelining", VStr "true");
    ("xla_should_allow_loop_variant_parameter_in_chain", VStr "ENABLED");
    ("xla_should_add_loop_invariant_op_in_chain", VStr "ENABLED");
    ("xla_max_concurrent_host_send_recv", VInt 100);
    ("xla_latency_hiding_scheduler_rerun", VInt 0) ].

Definition multislice_options : list (string * pyval) :=
  [ ("xla_tpu_enable_megascale_barrier", VStr "true");
    ("xla_tpu_enable_data_parallel_all_reduce_opt", VStr "true");
    ("xla_tpu_data_parallel_opt_different_sized_ops", VStr "true") ].

Definition default_xla_options
  (instance_type : string) (num_slices : Z) (backend : string) : result dict :=
  if negb (String.eqb backend "tpu")
  then Raise (NotImplementedError backend)
  else
    tpu_type <- infer_tpu_type instance_type ;;
    version <- infer_tpu_version tpu_type ;;
    let options := dict_of base_options in
    let options :=
      if String.eqb version "v4" then dict_update options v4_options
      else options in
    let options :=
      if String.eqb version "v6e" then dict_update options v6e_options
      else options in
    let options :=
      if (num_slices >? 1)%Z then dict_update options multislice_options
      else options in
    Ok options.

(** ** The flag serialiser *)

(** [str(v)], what an f-string interpolates. *)
Definition py_str (v : pyval) : string :=
  match v with
  | VBool true => "True"
  | VBool false => "False"
  | VStr s => s
  | VInt n => PyStr.str_of_int n
  end.

(** One turn of the loop: rebind [v] when it is a [bool], then append the
    token to [flags]. *)
Definition append_flag (flags : list string) (kv : string * pyval) : list string :=
  let '(k, v) := kv in
  let v := match v with
           | VBool b => VStr (if b then "1" else "0")
           | _ => v
           end in
  let token := "--" ++ k ++ "=" ++ py_str v in
  app flags [token].

Definition xla_flags_from_options (xla_options : dict) : string :=
  let flags := fold_left append_flag xla_options [] in
  PyStr.join " " flags.

(** ** Vocabulary of the specification *)

(** The strings [tpu_pattern] describes, spelled out: an optional [tpu-],
    the letter [v], one or more characters other than the line feed, a
    hyphen, one or more digits. *)
Definition tpu_shape (s : string) : Prop :=
  exists p m d,
    s = p ++ "v" ++ m ++ "-" ++ d /\
    (p = EmptyString \/ p = "tpu-") /\
    m <> EmptyString /\ PyStr.all Re.dot m = true /\
    d <> EmptyString /\ PyStr.all Re.digit d = true.

(** The shape in the words of the specification,
    [(tpu-)?<anything>-<digits>]: an optional [tpu-], a non-empty token, a
    hyphen, one or more digits. *)
Definition spec_shape (s : string) : Prop :=
  exists p t d,
    s = p ++ t ++ "-" ++ d /\
    (p = EmptyString \/ p = "tpu-") /\
    t <> EmptyString /\
    d <> EmptyString /\ PyStr.all Re.digit d = true.

Fixpoint drop (n : nat) (s : string) : string :=
  match n, s with
  | S k, String _ s' => drop k s'
  | _, _ => s
  end.

(** [s] without a leading [pre], when it has one: what the specification calls
    stripping the prefix. *)
Definition removeprefix (s pre : string) : string :=
  if prefix pre s then drop (String.length pre) s else s.

(** [contains s sub]: [sub] occurs somewhere in [s]. *)
Fixpoint contains (s sub : string) : bool :=
  prefix sub s ||
  match s with
  | EmptyString => false
  | String _ s' => contains s' sub
  end.

Definition not_hyphen (c : ascii) : bool := negb (Ascii.eqb c "-").

(** The token of the serialiser for one entry, in the words of the
    specification. *)
Definition render_value (v : pyval) : string :=
  match v with
  | VBool true => "1"
  | VBool false => "0"
  | VStr s => s
  | VInt n => PyStr.str_of_int n
  end.

Definition render_flag (kv : string * pyval) : string :=
  "--" ++ fst kv ++ "=" ++ render_value (snd kv).

(** The keys of the v6e overlay that the v4 overlay does not set as well. *)
Definition v6e_specific_keys : list string :=
  filter (fun k => negb (str_in k (keys v4_options))) (keys v6e_options).

(** [distinct l]: no string occurs twice in [l]. *)
Fixpoint distinct (l : list string) : bool :=
  match l with
  | [] => true
  | x :: l' => negb (str_in x l') && distinct l'
  end.

(** [d] holds every entry of [kvs], with the value [kvs] gives it. *)
Definition holds_all (d : dict) (kvs : list (string * pyval)) : Prop :=
  Forall (fun kv => dict_get (fst kv) d = Some (snd kv)) kvs.

(** [d] holds none of the keys [ks]. *)
Definition holds_none (d : dict) (ks : list string) : Prop :=
  Forall (fun k => dict_get k d = None) ks.

(** The mapping before the multi-slice step, as a function of the version. *)
Definition version_options (version : string) : dict :=
  let options := dict_of base_options in
  let options :=
    if String.eqb version "v4" then dict_update options v4_options
    else options in
  if String.eqb version "v6e" then dict_update options v6e_options
  else options.

(** The overlay the resolver merges for a version: the v4 flags, the v6e
    flags, or nothing. *)
Definition overlay_of (version : string) : list (string * pyval) :=
  if String.eqb version "v4" then v4_options
  else if String.eqb version "v6e" then v6e_options
  else [].

(** The overlay the resolver merges for a slice count. *)
Definition slices_overlay (num_slices : Z) : list (string * pyval) :=
  if (num_slices >? 1)%Z then multislice_options else [].

(** * Properties *)

(** ** Facts about the string primitives *)

Module PyStrFacts.
Import PyStr.

Lemma append_empty_r (s : string) : s ++ EmptyString = s.
Proof. induction s as [|c s IH]; simpl; [reflexivity | now rewrite IH]. Qed.

Lemma append_assoc (s t u : string) : (s ++ t) ++ u = s ++ (t ++ u).
Proof. induction s as [|c s IH]; simpl; [reflexivity | now rewrite IH]. Qed.

Lemma append_eq_empty (s t : string) :
  s ++ t = EmptyString -> s = EmptyString /\ t = EmptyString.
Proof. destruct s; simpl; [auto | discriminate]. Qed.

Lemma all_append p s t : all p (s ++ t) = all p s && all p t.
Proof.
  induction s as [|c s IH]; simpl; [reflexivity|].
  now rewrite IH, andb_assoc.
Qed.

Lemma prefix_append (p s : string) : prefix p (p ++ s) = true.
Proof.
  induction p as [|c p IH]; simpl; [now destruct s|].
  destruct (ascii_dec c c) as [_|N]; [exact IH | now elim N].
Qed.

Lemma prefix_split (p s : string) :
  prefix p s = true -> exists t, s = p ++ t.
Proof.
  revert s; induction p as [|c p IH]; intros s H.
  - now exists s.
  - destruct s as [|d s]; simpl in H; [discriminate|].
    destruct (ascii_dec c d) as [->|_]; [|discriminate].
    destruct (IH _ H) as [t ->]. now exists t.
Qed.


Lemma replace_scan_skip old new p s :
  replace_scan old new (String.length p) (p ++ s) = replace_scan old new 0 s.
Proof.
  induction p as [|c p IH]; simpl; [|exact IH].
  destruct s; reflexivity.
Qed.

(** At an occurrence of [old] the scan emits [new] and goes on behind it. *)
Lemma replace_occurrence old new s :
  old <> EmptyString -> replace (old ++ s) old new = new ++ replace s old new.
Proof.
  intros Hne. destruct old as [|c old]; [now elim Hne|].
  unfold replace.
  change (String c old ++ s) with (String c (old ++ s)).
  cbn [replace_scan].
  change (String c (old ++ s)) with (String c old ++ s).
  rewrite prefix_append.
  replace (String.length (String c old) - 1) with (String.length old)
    by (cbn [String.length]; lia).
  now rewrite replace_scan_skip.
Qed.

(** Elsewhere it copies the character. *)
Lemma replace_copy old new c s :
  prefix old (String c s) = false ->
  replace (String c s) old new = String c (replace s old new).
Proof. unfold replace; cbn [replace_scan]; now intros ->. Qed.

Lemma replace_absent old new s :
  old <> EmptyString -> contains s old = false -> replace s old new = s.
Proof.
  intros Hne. induction s as [|c s IH]; intros H; [reflexivity|].
  cbn [contains] in H. apply orb_false_elim in H as [H1 H2].
  rewrite replace_copy by exact H1. now rewrite IH.
Qed.

Lemma rcut_none sep s : all (fun c => negb (Ascii.eqb c sep)) s = true -> rcut sep s = None.
Proof.
  induction s as [|c s IH]; simpl; intros H; [reflexivity|].
  apply andb_prop in H as [Hc Hs]. rewrite (IH Hs).
  now apply negb_true_iff in Hc as ->.
Qed.

(** The cut is at the last separator. *)
Lemma rcut_last sep h t :
  all (fun c => negb (Ascii.eqb c sep)) t = true ->
  rcut sep (h ++ String sep t) = Some (h, t).
Proof.
  intros Ht. induction h as [|c h IH]; simpl.
  - now rewrite (rcut_none _ _ Ht), Ascii.eqb_refl.
  - now rewrite IH.
Qed.

End PyStrFacts.

(** ** The derivative matcher decides the language *)

Module ReFacts.
Import Re PyStr PyStrFacts.

Lemma nullable_sound r : nullable r = true -> Matches r EmptyString.
Proof.
  induction r as [| |p|r1 IH1 r2 IH2|r1 IH1 r2 IH2|r IH]; simpl; intros H;
    try discriminate.
  - apply MEps.
  - apply andb_prop in H as [H1 H2].
    apply (MSeq r1 r2 EmptyString EmptyString); auto.
  - apply orb_prop in H as [H|H]; [apply MAltL | apply MAltR]; auto.
  - apply MStarNil.
Qed.

Lemma nullable_complete r s : Matches r s -> s = EmptyString -> nullable r = true.
Proof.
  induction 1 as [|p c Hp|r1 r2 s1 s2 _ IH1 _ IH2|r1 r2 s _ IH|r1 r2 s _ IH
                 |r|r s1 s2 _ _ _ _]; simpl; intros E; auto.
  - discriminate.
  - apply append_eq_empty in E as [E1 E2]. now rewrite IH1, IH2.
  - now rewrite IH.
  - rewrite IH; auto using orb_true_r.
Qed.

Lemma nullable_iff r : nullable r = true <-> Matches r EmptyString.
Proof.
  split; [apply nullable_sound | intros H; now apply (nullable_complete r _ H)].
Qed.

(** A match of a string that starts with [c] leaves a match of the
    derivative by [c]. *)
Lemma deriv_complete r w :
  Matches r w -> forall c s, w = String c s -> Matches (deriv c r) s.
Proof.
  induction 1 as [|p c0 Hp|r1 r2 s1 s2 M1 IH1 M2 IH2|r1 r2 s0 _ IH|r1 r2 s0 _ IH
                 |r|r s1 s2 M1 IH1 M2 IH2]; intros c s E; simpl.
  - discriminate.
  - injection E as -> <-. rewrite Hp. apply MEps.
  - destruct s1 as [|c1 s1].
    + simpl in E. rewrite (nullable_complete _ _ M1 eq_refl).
      apply MAltR. now apply IH2.
    + simpl in E. injection E as -> <-.
      pose proof (MSeq _ _ _ _ (IH1 _ _ eq_refl) M2) as M.
      destruct (nullable r1); [now apply MAltL | exact M].
  - apply MAltL. now apply IH.
  - apply MAltR. now apply IH.
  - discriminate.
  - destruct s1 as [|c1 s1].
    + simpl in E. now apply IH2.
    + simpl in E. injection E as -> <-.
      exact (MSeq _ _ _ _ (IH1 _ _ eq_refl) M2).
Qed.

Lemma deriv_sound c r : forall s, Matches (deriv c r) s -> Matches r (String c s).
Proof.
  induction r as [| |p|r1 IH1 r2 IH2|r1 IH1 r2 IH2|r IH]; simpl; intros s H.
  - inversion H.
  - inversion H.
  - destruct (p c) eqn:Hp; inversion H; subst. now apply MClass.
  - assert (Hseq : forall t, Matches (Seq (deriv c r1) r2) t ->
                             Matches (Seq r1 r2) (String c t)).
    { intros t Ht. inversion Ht; subst.
      apply (MSeq r1 r2 (String c s1) s2); auto. }
    destruct (nullable r1) eqn:N; [|now apply Hseq].
    inversion H; subst; [now apply Hseq|].
    apply (MSeq r1 r2 EmptyString (String c s)); auto.
    now apply nullable_sound.
  - inversion H; subst; [apply MAltL | apply MAltR]; auto.
  - inversion H; subst.
    apply (MStarApp r (String c s1) s2); auto.
Qed.

Theorem fullmatch_iff r s : fullmatch r s = true <-> Matches r s.
Proof.
  revert r; induction s as [|c s IH]; intros r; simpl.
  - apply nullable_iff.
  - rewrite IH. split; [apply deriv_sound|].
    intros H. now apply (deriv_complete r _ H).
Qed.

(** *** Reading the surface forms *)

Lemma Matches_Seq r1 r2 s :
  Matches (Seq r1 r2) s <->
  exists s1 s2, s = s1 ++ s2 /\ Matches r1 s1 /\ Matches r2 s2.
Proof.
  split.
  - intros H; inversion H; subst; eauto.
  - intros (s1 & s2 & -> & H1 & H2). now apply MSeq.
Qed.

Lemma Matches_Chr c s : Matches (Chr c) s <-> s = String c EmptyString.
Proof.
  unfold Chr; split.
  - intros H; inversion H as [|p c0 Hp| | | | |]; subst.
    apply Ascii.eqb_eq in Hp. now subst.
  - intros ->. apply MClass, Ascii.eqb_refl.
Qed.

Lemma Matches_Lit l s : Matches (Lit l) s <-> s = l.
Proof.
  revert s; induction l as [|c l IH]; intros s; simpl.
  - split; [intros H; now inversion H | intros ->; apply MEps].
  - rewrite Matches_Seq. split.
    + intros (s1 & s2 & -> & H1 & H2).
      apply Matches_Chr in H1. apply IH in H2. now subst.
    + intros ->. exists (String c EmptyString), l.
      repeat split; [now apply Matches_Chr | now apply IH].
Qed.

Lemma Matches_Opt r s : Matches (Opt r) s <-> s = EmptyString \/ Matches r s.
Proof.
  unfold Opt; split.
  - intros H; inversion H; subst; [now right|].
    match goal with M : Matches Eps _ |- _ => inversion M end. now left.
  - intros [->|H]; [apply MAltR, MEps | now apply MAltL].
Qed.

Lemma Matches_Star_Class p s : Matches (Star (Class p)) s <-> all p s = true.
Proof.
  split.
  - intros H. remember (Star (Class p)) as r eqn:E.
    induction H as [| | | | | |r s1 s2 M1 _ M2 IH2]; try discriminate; auto.
    injection E as ->. rewrite all_append, (IH2 eq_refl), andb_true_r.
    inversion M1; subst; simpl. now rewrite andb_true_r.
  - induction s as [|c s IH]; simpl; intros H; [apply MStarNil|].
    apply andb_prop in H as [Hc Hs].
    apply (MStarApp (Class p) (String c EmptyString) s); auto.
    now apply MClass.
Qed.

Lemma Matches_Plus_Class p s :
  Matches (Plus (Class p)) s <-> s <> EmptyString /\ all p s = true.
Proof.
  unfold Plus; rewrite Matches_Seq; split.
  - intros (s1 & s2 & -> & H1 & H2). apply Matches_Star_Class in H2.
    inversion H1; subst; simpl. split; [discriminate|].
    now apply andb_true_intro.
  - intros [Hne H]. destruct s as [|c s]; [now elim Hne|].
    simpl in H. apply andb_prop in H as [Hc Hs].
    exists (String c EmptyString), s. repeat split.
    + now apply MClass.
    + now apply Matches_Star_Class.
Qed.

End ReFacts.

(** ** The instance-type parser *)

Module ParserFacts.
Import Re PyStr PyStrFacts ReFacts.

Lemma tpu_pattern_shape s : Matches tpu_pattern s <-> tpu_shape s.
Proof.
  unfold tpu_pattern, tpu_shape; split.
  - intros H.
    apply Matches_Seq in H as (p & s1 & -> & Hp & H).
    apply Matches_Seq in H as (v & s2 & -> & Hv & H).
    apply Matches_Seq in H as (m & s3 & -> & Hm & H).
    apply Matches_Seq in H as (h & d & -> & Hh & Hd).
    apply Matches_Opt in Hp. rewrite Matches_Lit in Hp.
    apply Matches_Chr in Hv. apply Matches_Chr in Hh.
    apply Matches_Plus_Class in Hm as [Hm1 Hm2].
    apply Matches_Plus_Class in Hd as [Hd1 Hd2].
    subst v h. exists p, m, d. repeat split; auto.
  - intros (p & m & d & -> & Hp & Hm1 & Hm2 & Hd1 & Hd2).
    apply MSeq; [apply Matches_Opt; rewrite Matches_Lit; exact Hp|].
    apply (MSeq _ _ "v"); [now apply Matches_Chr|].
    apply MSeq; [now apply Matches_Plus_Class|].
    apply (MSeq _ _ "-"); [now apply Matches_Chr|].
    now apply Matches_Plus_Class.
Qed.

Lemma tpu_shape_nonempty s : tpu_shape s -> s <> EmptyString.
Proof.
  intros (p & m & d & -> & _) E.
  apply append_eq_empty in E as [_ E]. discriminate.
Qed.

Lemma accepted_iff s :
  truthy s && fullmatch tpu_pattern s = true <-> tpu_shape s.
Proof.
  rewrite andb_true_iff, fullmatch_iff, tpu_pattern_shape.
  split; [tauto|]. intros H; split; [|exact H].
  unfold truthy. apply negb_true_iff, String.eqb_neq.
  now apply tpu_shape_nonempty.
Qed.

Lemma infer_tpu_type_Ok s t :
  infer_tpu_type s = Ok t <-> tpu_shape s /\ t = replace s "tpu-" EmptyString.
Proof.
  unfold infer_tpu_type.
  destruct (truthy s && fullmatch tpu_pattern s) eqn:E; simpl.
  - apply accepted_iff in E. split.
    + intros [= <-]. now split.
    + now intros [_ ->].
  - split; [discriminate|]. intros [H _].
    apply accepted_iff in H. congruence.
Qed.

Lemma infer_tpu_type_Raise s e :
  infer_tpu_type s = Raise e <->
  ~ tpu_shape s /\ e = NotTpuError ("Invalid TPU instance: " ++ s).
Proof.
  unfold infer_tpu_type.
  destruct (truthy s && fullmatch tpu_pattern s) eqn:E; simpl.
  - apply accepted_iff in E. split; [discriminate|]. now intros [H _].
  - split.
    + intros [= <-]. split; [|reflexivity].
      intros H. apply accepted_iff in H. congruence.
    + now intros [_ ->].
Qed.


(** Every accepted string has the shape the specification describes. *)
Lemma tpu_shape_spec_shape s : tpu_shape s -> spec_shape s.
Proof.
  intros (p & m & d & -> & Hp & Hm1 & _ & Hd1 & Hd2).
  exists p, ("v" ++ m), d. repeat split; auto. discriminate.
Qed.

Lemma tpu_shape_starts_with_v s :
  tpu_shape s -> startswith (removeprefix s "tpu-") "v" = true.
Proof.
  intros (p & m & d & -> & [-> | ->] & _); destruct m; reflexivity.
Qed.

Lemma digits_no_hyphen a b : all digit (a ++ String "-" b) = false.
Proof.
  rewrite all_append. simpl. apply andb_false_r.
Qed.

Lemma v_hyphen_not_shape p d :
  p = EmptyString \/ p = "tpu-" -> all digit d = true ->
  ~ tpu_shape (p ++ "v-" ++ d).
Proof.
  intros Hp Hd (p' & m & d' & E & Hp' & Hm & _).
  assert (Em : m ++ "-" ++ d' = "-" ++ d).
  { destruct Hp as [-> | ->], Hp' as [-> | ->]; simpl in E;
      try discriminate; now injection E. }
  destruct m as [|c m]; [now elim Hm|].
  simpl in Em. injection Em as _ Em.
  rewrite <- Em in Hd. change ("-" ++ d') with (String "-" d') in Hd.
  now rewrite digits_no_hyphen in Hd.
Qed.

Lemma str_in_iff x t : str_in x t = true <-> In x t.
Proof.
  unfold str_in. rewrite existsb_exists. split.
  - intros (y & Hy & E). apply String.eqb_eq in E. now subst.
  - intros H. exists x. split; [exact H | apply String.eqb_refl].
Qed.

(** The version parser on a normalised token that holds a hyphen. *)
Lemma infer_tpu_version_cut t n v r :
  infer_tpu_type t = Ok n -> n = v ++ "-" ++ r -> all not_hyphen r = true ->
  infer_tpu_version t =
    if str_in v _TPU_VERSIONS then Ok v
    else Raise (ValueError (unknown_version_msg v)).
Proof.
  intros Ht -> Hr. unfold infer_tpu_version. rewrite Ht. cbn [bind].
  unfold rsplit1. change ("-" ++ r) with (String "-" r).
  rewrite (rcut_last "-" v r Hr). cbn [hd].
  now destruct (str_in v _TPU_VERSIONS).
Qed.

(** The version parser on a normalised token without a hyphen: the whole
    token is the candidate. *)
Lemma infer_tpu_version_whole t n :
  infer_tpu_type t = Ok n -> all not_hyphen n = true ->
  infer_tpu_version t =
    if str_in n _TPU_VERSIONS then Ok n
    else Raise (ValueError (unknown_version_msg n)).
Proof.
  intros Ht Hn. unfold infer_tpu_version. rewrite Ht. cbn [bind].
  unfold rsplit1. rewrite (rcut_none "-" n Hn). cbn [hd].
  now destruct (str_in n _TPU_VERSIONS).
Qed.

(** When [tpu-] occurs in the input as a leading prefix at most, the parser
    strips that prefix and nothing else. *)
Lemma infer_tpu_type_prefix_only s :
  tpu_shape s -> contains (removeprefix s "tpu-") "tpu-" = false ->
  infer_tpu_type s = Ok (removeprefix s "tpu-").
Proof.
  intros Hs Hc. apply infer_tpu_type_Ok. split; [exact Hs|].
  destruct Hs as (p & m & d & -> & [-> | ->] & _).
  - change (removeprefix (EmptyString ++ "v" ++ m ++ "-" ++ d) "tpu-")
      with (EmptyString ++ "v" ++ m ++ "-" ++ d) in *.
    symmetry. apply replace_absent; [discriminate | exact Hc].
  - change (removeprefix ("tpu-" ++ "v" ++ m ++ "-" ++ d) "tpu-")
      with ("v" ++ m ++ "-" ++ d) in *.
    rewrite replace_occurrence by discriminate.
    symmetry. apply replace_absent; [discriminate | exact Hc].
Qed.

End ParserFacts.

(** ** Claims about the instance-type parser *)

Module ParserClaims.
Import Re PyStr PyStrFacts ReFacts ParserFacts.

(** C4, as stated, fails: ["x4-8"] has the shape [(tpu-)?<anything>-<digits>]
    (token [x4], digits [8]) and [infer_tpu_type] does not succeed on it. *)
Lemma spec_shape_x4_8_rejected :
  spec_shape "x4-8" /\ ~ (exists t, infer_tpu_type "x4-8" = Ok t).
Proof.
  split.
  - exists EmptyString, "x4", "8". repeat split; auto; discriminate.
  - intros [t H]. discriminate H.
Qed.

(** C4, amended: among the strings whose characters are code points below
    256 (the strings of this model, on which the digit class is ['0'..'9']),
    [infer_tpu_type] succeeds exactly on those made of an optional [tpu-],
    the letter [v], one or more characters other than the line feed, a
    hyphen and one or more digits ['0'..'9']; on every other such string it
    raises [NotTpuError] with the message [Invalid TPU instance: ] followed by
    the input.  The empty string, ["garbage"] and ["v4"] are rejected so. *)
Theorem infer_tpu_type_accepts_exactly :
  (forall s, tpu_shape s <-> exists t, infer_tpu_type s = Ok t) /\
  (forall s, ~ tpu_shape s <->
             infer_tpu_type s = Raise (NotTpuError ("Invalid TPU instance: " ++ s))) /\
  infer_tpu_type EmptyString = Raise (NotTpuError "Invalid TPU instance: ") /\
  infer_tpu_type "garbage" = Raise (NotTpuError "Invalid TPU instance: garbage") /\
  infer_tpu_type "v4" = Raise (NotTpuError "Invalid TPU instance: v4").
Proof.
  split; [|split; [|repeat split]].
  - intros s; split.
    + intros H. eexists. apply infer_tpu_type_Ok. split; [exact H | reflexivity].
    + intros [t H]. now apply infer_tpu_type_Ok in H.
  - intros s; split.
    + intros H. now apply infer_tpu_type_Raise.
    + intros H. now apply infer_tpu_type_Raise in H.
Qed.

Lemma infer_tpu_type_accepts_exactly_witness :
  tpu_shape "tpu-v5p-2048" /\ exists t, infer_tpu_type "tpu-v5p-2048" = Ok t.
Proof.
  assert (H : tpu_shape "tpu-v5p-2048").
  { exists "tpu-", "5p", "2048". repeat split; auto; discriminate. }
  split; [exact H|].
  exact (proj1 (proj1 infer_tpu_type_accepts_exactly "tpu-v5p-2048") H).
Defined.

(** C5 fails on the code: [str.replace] removes every occurrence of [tpu-],
    not the leading one alone.  ["vtpu-4-8"] is accepted, has no leading
    [tpu-], and comes back as ["v4-8"]. *)
Theorem infer_tpu_type_removes_inner_tpu :
  infer_tpu_type "vtpu-4-8" = Ok "v4-8" /\
  removeprefix "vtpu-4-8" "tpu-" = "vtpu-4-8" /\
  infer_tpu_type "tpu-vtpu-4-8" = Ok "v4-8" /\
  removeprefix "tpu-vtpu-4-8" "tpu-" = "vtpu-4-8".
Proof. repeat split. Qed.

(** C8: when [tpu-<v>-<n>] and [<v>-<n>] are both accepted, [infer_tpu_type]
    returns the same token for the two. *)
Theorem infer_tpu_type_prefix_irrelevant body t1 t2 :
  infer_tpu_type ("tpu-" ++ body) = Ok t1 ->
  infer_tpu_type body = Ok t2 ->
  t1 = t2.
Proof.
  intros H1 H2.
  apply infer_tpu_type_Ok in H1 as [_ ->].
  apply infer_tpu_type_Ok in H2 as [_ ->].
  now rewrite replace_occurrence by discriminate.
Qed.

Lemma infer_tpu_type_prefix_irrelevant_witness :
  infer_tpu_type ("tpu-" ++ "v5litepod-16") = Ok "v5litepod-16" /\
  infer_tpu_type "v5litepod-16" = Ok "v5litepod-16" /\
  "v5litepod-16" = "v5litepod-16".
Proof.
  split; [reflexivity|]. split; [reflexivity|].
  apply (infer_tpu_type_prefix_irrelevant "v5litepod-16"); reflexivity.
Defined.

(** C10: a string that, after an optional leading [tpu-], does not start
    with [v] is rejected with [NotTpuError], whatever follows; so is one
    where the [v] is followed at once by the hyphen and the digits.
    ["x4-8"] and ["tpu-x4-8"] have the shape [<anything>-<digits>] and are
    rejected. *)
Theorem infer_tpu_type_requires_v :
  (forall s, startswith (removeprefix s "tpu-") "v" = false ->
     infer_tpu_type s = Raise (NotTpuError ("Invalid TPU instance: " ++ s))) /\
  (forall p d, p = EmptyString \/ p = "tpu-" -> all digit d = true ->
     infer_tpu_type (p ++ "v-" ++ d) =
       Raise (NotTpuError ("Invalid TPU instance: " ++ p ++ "v-" ++ d))) /\
  (spec_shape "x4-8" /\
   infer_tpu_type "x4-8" = Raise (NotTpuError "Invalid TPU instance: x4-8")) /\
  (spec_shape "tpu-x4-8" /\
   infer_tpu_type "tpu-x4-8" = Raise (NotTpuError "Invalid TPU instance: tpu-x4-8")).
Proof.
  split; [|split; [|split; split]].
  - intros s H. apply infer_tpu_type_Raise. split; [|reflexivity].
    intros Hs. apply tpu_shape_starts_with_v in Hs. congruence.
  - intros p d Hp Hd. apply infer_tpu_type_Raise. split; [|reflexivity].
    now apply v_hyphen_not_shape.
  - exists EmptyString, "x4", "8". repeat split; auto; discriminate.
  - reflexivity.
  - exists "tpu-", "x4", "8". repeat split; auto; discriminate.
  - reflexivity.
Qed.

Lemma infer_tpu_type_requires_v_witness :
  startswith (removeprefix "tpu-x4-8" "tpu-") "v" = false /\
  infer_tpu_type "tpu-x4-8" = Raise (NotTpuError "Invalid TPU instance: tpu-x4-8") /\
  infer_tpu_type "v-8" = Raise (NotTpuError "Invalid TPU instance: v-8").
Proof.
  split; [reflexivity|]. split.
  - apply (proj1 infer_tpu_type_requires_v "tpu-x4-8"). reflexivity.
  - apply (proj1 (proj2 infer_tpu_type_requires_v) EmptyString "8");
      [left|]; reflexivity.
Defined.

(** C6: [infer_tpu_version] passes on the rejection of [infer_tpu_type];
    otherwise it cuts the normalised token at its last hyphen, returns the
    part before it when that part is one of [v3], [v4], [v5litepod], [v5p],
    [v6e], and raises [ValueError] naming that part and the five versions
    when it is not.  It returns members of the enumeration only;
    ["v7-8"] raises, ["v5p-2048"] gives ["v5p"]. *)
Theorem infer_tpu_version_spec :
  (forall t e, infer_tpu_type t = Raise e -> infer_tpu_version t = Raise e) /\
  (forall t n v r,
     infer_tpu_type t = Ok n -> n = v ++ "-" ++ r -> all not_hyphen r = true ->
     (In v ["v3"; "v4"; "v5litepod"; "v5p"; "v6e"] -> infer_tpu_version t = Ok v) /\
     (~ In v ["v3"; "v4"; "v5litepod"; "v5p"; "v6e"] ->
      infer_tpu_version t =
        Raise (ValueError ("Unknown TPU version " ++ v ++
          ". Expected one of ('v3', 'v4', 'v5litepod', 'v5p', 'v6e')")))) /\
  (forall t v, infer_tpu_version t = Ok v ->
     In v ["v3"; "v4"; "v5litepod"; "v5p"; "v6e"]) /\
  infer_tpu_version "v7-8" =
    Raise (ValueError
      "Unknown TPU version v7. Expected one of ('v3', 'v4', 'v5litepod', 'v5p', 'v6e')") /\
  infer_tpu_version "v5p-2048" = Ok "v5p".
Proof.
  split; [|split; [|split; [|split]]].
  - intros t e H. unfold infer_tpu_version. now rewrite H.
  - intros t n v r Ht Hn Hr.
    rewrite (infer_tpu_version_cut t n v r Ht Hn Hr).
    split; intros Hv.
    + apply str_in_iff in Hv. unfold _TPU_VERSIONS. now rewrite Hv.
    + destruct (str_in v _TPU_VERSIONS) eqn:E.
      * apply str_in_iff in E. now elim Hv.
      * reflexivity.
  - intros t v. unfold infer_tpu_version.
    destruct (infer_tpu_type t) as [n|e]; cbn [bind]; [|discriminate].
    destruct (str_in _ _TPU_VERSIONS) eqn:E; cbn [negb]; [|discriminate].
    intros [= <-]. now apply str_in_iff.
  - reflexivity.
  - reflexivity.
Qed.

Lemma infer_tpu_version_spec_witness :
  infer_tpu_version "tpu-v4-8" = Ok "v4" /\
  infer_tpu_version "garbage" = Raise (NotTpuError "Invalid TPU instance: garbage").
Proof.
  split.
  - apply (proj1 (proj2 infer_tpu_version_spec) "tpu-v4-8" "v4-8" "v4" "8");
      [reflexivity | reflexivity | reflexivity | simpl; tauto].
  - apply (proj1 infer_tpu_version_spec). reflexivity.
Defined.

End ParserClaims.

(** ** Claims about the option resolver *)

Module ResolverClaims.
Import PyStr ParserFacts.

Lemma distinct_NoDup l : distinct l = true -> NoDup l.
Proof.
  induction l as [|x l IH]; simpl; intros H; [constructor|].
  apply andb_prop in H as [Hx Hl]. constructor; [|auto].
  intros Hin. apply str_in_iff in Hin. now rewrite Hin in Hx.
Qed.

Lemma default_xla_options_tpu instance_type num_slices :
  default_xla_options instance_type num_slices "tpu" =
    tpu_type <- infer_tpu_type instance_type ;;
    version <- infer_tpu_version tpu_type ;;
    Ok (if (num_slices >? 1)%Z
        then dict_update (version_options version) multislice_options
        else version_options version).
Proof. reflexivity. Qed.

Lemma version_options_cases version :
  version_options version = dict_of base_options \/
  version_options version = dict_update (dict_of base_options) v4_options \/
  version_options version = dict_update (dict_of base_options) v6e_options \/
  version_options version =
    dict_update (dict_update (dict_of base_options) v4_options) v6e_options.
Proof.
  unfold version_options.
  destruct (String.eqb version "v4"), (String.eqb version "v6e"); auto.
Qed.

Lemma version_options_single version :
  holds_none (version_options version) (keys multislice_options).
Proof.
  destruct (version_options_cases version) as [E|[E|[E|E]]]; rewrite E;
    repeat constructor.
Qed.

Lemma version_options_multi version :
  holds_all (dict_update (version_options version) multislice_options)
            multislice_options.
Proof.
  destruct (version_options_cases version) as [E|[E|[E|E]]]; rewrite E;
    repeat constructor.
Qed.

(** C1: for ["v4-8"], one slice, backend ["tpu"], the mapping is the three
    base flags followed by the two v4 flags and nothing else; it holds no
    flag that only the v6e overlay sets and no multi-slice flag. *)
Theorem default_xla_options_v4_single :
  default_xla_options "v4-8" 1 "tpu" =
    Ok [ ("xla_tpu_spmd_rng_bit_generator_unsafe", VBool true);
         ("xla_tpu_enable_latency_hiding_scheduler", VStr "true");
         ("xla_tpu_perform_spmd_cse_prevention", VStr "false");
         ("xla_enable_async_all_gather", VStr "true");
         ("xla_enable_async_collective_permute", VStr "true") ] /\
  default_xla_options "v4-8" 1 "tpu" = Ok (base_options ++ v4_options)%list /\
  holds_none (base_options ++ v4_options)%list v6e_specific_keys /\
  holds_none (base_options ++ v4_options)%list (keys multislice_options).
Proof.
  split; [reflexivity|]. split; [reflexivity|].
  split; repeat constructor.
Qed.

(** C2: for ["v6e-256"], two slices, backend ["tpu"], the mapping is the
    three base flags, then the sixteen flags of the v6e overlay, then the
    three multi-slice flags, twenty-two entries written out below; the keys
    of the three overlays are pairwise distinct, so every entry keeps the
    value its overlay gave it. *)
Theorem default_xla_options_v6e_multi :
  default_xla_options "v6e-256" 2 "tpu" =
    Ok [ ("xla_tpu_spmd_rng_bit_generator_unsafe", VBool true);
         ("xla_tpu_enable_latency_hiding_scheduler", VStr "true");
         ("xla_tpu_perform_spmd_cse_prevention", VStr "false");
         ("xla_tpu_scoped_vmem_limit_kib", VStr "98304");
         ("xla_tpu_enable_async_collective_fusion", VStr "true");
         ("xla_tpu_enable_async_collective_fusion_fuse_all_gather", VStr "true");
         ("xla_tpu_enable_async_collective_fusion_multiple_steps", VStr "true");
         ("xla_tpu_overlap_compute_collective_tc", VStr "true");
         ("xla_enable_async_all_gather", VStr "true");
         ("xla_tpu_enable_all_experimental_scheduler_features", VStr "true");
         ("xla_tpu_enable_scheduler_memory_pressure_tracking", VStr "ENABLED");
         ("xla_tpu_host_transfer_overlap_limit", VInt 24);
         ("xla_tpu_aggressive_opt_barrier_removal", VStr "ENABLED");
         ("xla_lhs_prioritize_async_depth_over_stall", VStr "ENABLED");
         ("xla_tpu_enable_ag_backward_pipelining", VStr "true");
         ("xla_should_allow_loop_variant_parameter_in_chain", VStr "ENABLED");
         ("xla_should_add_loop_invariant_op_in_chain", VStr "ENABLED");
         ("xla_max_concurrent_host_send_recv", VInt 100);
         ("xla_latency_hiding_scheduler_rerun", VInt 0);
         ("xla_tpu_enable_megascale_barrier", VStr "true");
         ("xla_tpu_enable_data_parallel_all_reduce_opt", VStr "true");
         ("xla_tpu_data_parallel_opt_different_sized_ops", VStr "true") ] /\
  default_xla_options "v6e-256" 2 "tpu" =
    Ok (base_options ++ v6e_options ++ multislice_options)%list /\
  multislice_options =
    [ ("xla_tpu_enable_megascale_barrier", VStr "true");
      ("xla_tpu_enable_data_parallel_all_reduce_opt", VStr "true");
      ("xla_tpu_data_parallel_opt_different_sized_ops", VStr "true") ] /\
  NoDup (keys (base_options ++ v6e_options ++ multislice_options)%list) /\
  holds_all (base_options ++ v6e_options ++ multislice_options)%list
            (base_options ++ v6e_options ++ multislice_options)%list.
Proof.
  split; [reflexivity|]. split; [reflexivity|]. split; [reflexivity|]. split.
  - apply distinct_NoDup. reflexivity.
  - repeat constructor.
Qed.

(** C3: with a backend other than ["tpu"] the call raises
    [NotImplementedError(backend)], whatever the instance type and the slice
    count, valid or not. *)
Theorem default_xla_options_backend instance_type num_slices backend :
  backend <> "tpu" ->
  default_xla_options instance_type num_slices backend =
    Raise (NotImplementedError backend).
Proof.
  intros H. unfold default_xla_options.
  apply String.eqb_neq in H. now rewrite H.
Qed.

Lemma default_xla_options_backend_witness :
  "gpu" <> "tpu" /\
  default_xla_options "garbage" 0 "gpu" = Raise (NotImplementedError "gpu") /\
  default_xla_options "v4-8" 1 "gpu" = Raise (NotImplementedError "gpu").
Proof.
  split; [discriminate|].
  split; apply default_xla_options_backend; discriminate.
Defined.

(** C9: a slice count of 1 or less, zero and negative counts included, gives
    what a slice count of 1 gives, error or mapping, and the mapping holds
    none of the three multi-slice flags; a slice count above 1 gives the
    mapping of one slice updated with the three multi-slice flags. *)
Theorem default_xla_options_num_slices instance_type num_slices backend :
  ((num_slices <= 1)%Z ->
     default_xla_options instance_type num_slices backend =
       default_xla_options instance_type 1 backend /\
     forall d, default_xla_options instance_type num_slices backend = Ok d ->
               holds_none d (keys multislice_options)) /\
  ((num_slices > 1)%Z ->
     default_xla_options instance_type num_slices backend =
       (d <- default_xla_options instance_type 1 backend ;;
        Ok (dict_update d multislice_options)) /\
     forall d, default_xla_options instance_type num_slices backend = Ok d ->
               holds_all d multislice_options).
Proof.
  unfold default_xla_options.
  destruct (negb (String.eqb backend "tpu")).
  { split; intros _; (split; [reflexivity | discriminate]). }
  fold (version_options).
  destruct (infer_tpu_type instance_type) as [tpu_type|e]; cbn [bind].
  2:{ split; intros _; (split; [reflexivity | discriminate]). }
  destruct (infer_tpu_version tpu_type) as [version|e]; cbn [bind].
  2:{ split; intros _; (split; [reflexivity | discriminate]). }
  change (1 >? 1)%Z with false. cbv iota.
  split; intros H.
  - assert (E : (num_slices >? 1)%Z = false)
      by (rewrite Z.gtb_ltb; apply Z.ltb_ge; lia).
    rewrite E. split; [reflexivity|]. intros d [= <-]. apply version_options_single.
  - assert (E : (num_slices >? 1)%Z = true)
      by (rewrite Z.gtb_ltb; apply Z.ltb_lt; lia).
    rewrite E. split; [reflexivity|]. intros d [= <-]. apply version_options_multi.
Qed.

Lemma default_xla_options_num_slices_witness :
  default_xla_options "v6e-8" (-3) "tpu" = default_xla_options "v6e-8" 1 "tpu" /\
  default_xla_options "v4-8" 0 "tpu" = default_xla_options "v4-8" 1 "tpu" /\
  default_xla_options "v3-8" 4 "tpu" =
    Ok (base_options ++ multislice_options)%list.
Proof.
  split; [|split].
  - refine (proj1 (proj1 (default_xla_options_num_slices "v6e-8" (-3) "tpu") _)).
    discriminate.
  - refine (proj1 (proj1 (default_xla_options_num_slices "v4-8" 0 "tpu") _)).
    discriminate.
  - refine (proj1 (proj2 (default_xla_options_num_slices "v3-8" 4 "tpu") _)).
    reflexivity.
Defined.

End ResolverClaims.

(** ** Claims about the flag serialiser *)

Module SerialiserClaims.
Import PyStr.

Lemma append_flag_token flags kv :
  append_flag flags kv = (flags ++ [render_flag kv])%list.
Proof.
  destruct kv as [k v]. unfold append_flag, render_flag; cbn [fst snd].
  destruct v as [[|]|s|n]; reflexivity.
Qed.

(** The loop appends one token per entry, in the order of the mapping. *)
Lemma flags_loop d : forall flags,
  fold_left append_flag d flags = (flags ++ map render_flag d)%list.
Proof.
  induction d as [|kv d IH]; intros flags; cbn [fold_left map].
  - now rewrite app_nil_r.
  - now rewrite IH, append_flag_token, <- app_assoc.
Qed.

Lemma concat_empty_cons x l :
  String.concat EmptyString (x :: l) = x ++ String.concat EmptyString l.
Proof.
  destruct l; cbn [String.concat]; [now rewrite PyStrFacts.append_empty_r|].
  reflexivity.
Qed.

(** Joining with a space puts one space before every token but the first. *)
Lemma join_space t ts :
  join " " (t :: ts) = t ++ String.concat EmptyString (map (append " ") ts).
Proof.
  unfold join. revert t.
  induction ts as [|u ts IH]; intros t.
  - cbn [String.concat map]. now rewrite PyStrFacts.append_empty_r.
  - change (String.concat " " (t :: u :: ts))
      with (t ++ " " ++ String.concat " " (u :: ts)).
    rewrite IH. cbn [map]. rewrite concat_empty_cons.
    now rewrite PyStrFacts.append_assoc.
Qed.

(** C7: the flag string is the tokens [--<key>=<value>] of the entries, in
    the order of the mapping, joined by single spaces; [True] is rendered
    [1], [False] is rendered [0], a string is copied and an integer is
    written in decimal.  The empty mapping gives the empty string and
    [{a: True, b: false, c: 5}] gives [--a=1 --b=false --c=5]. *)
Theorem xla_flags_from_options_spec :
  (forall d, xla_flags_from_options d = join " " (map render_flag d)) /\
  (forall k, render_flag (k, VBool true) = "--" ++ k ++ "=1") /\
  (forall k, render_flag (k, VBool false) = "--" ++ k ++ "=0") /\
  (forall k v, render_flag (k, VStr v) = "--" ++ k ++ "=" ++ v) /\
  (forall k n, render_flag (k, VInt n) = "--" ++ k ++ "=" ++ str_of_int n) /\
  (forall t ts, join " " (t :: ts) = t ++ String.concat EmptyString (map (append " ") ts)) /\
  xla_flags_from_options [] = EmptyString /\
  xla_flags_from_options [("a", VBool true); ("b", VStr "false"); ("c", VInt 5)] =
    "--a=1 --b=false --c=5".
Proof.
  split; [|repeat split].
  - intros d. unfold xla_flags_from_options. now rewrite flags_loop.
  - apply join_space.
Qed.

End SerialiserClaims.

(** * Further properties of the code *)

(** ** More on the string primitives *)

Module PyStrMore.
Import Re PyStr PyStrFacts.

Lemma prefix_empty s : prefix EmptyString s = true.
Proof. now destruct s. Qed.

Lemma length_append s t :
  String.length (s ++ t) = String.length s + String.length t.
Proof. induction s as [|c s IH]; simpl; [reflexivity | now rewrite IH]. Qed.

(** Deleting occurrences never makes the string longer. *)
Lemma replace_scan_length old s : forall k,
  String.length (replace_scan old EmptyString k s) <= String.length s.
Proof.
  induction s as [|c s IH]; intros k; [apply Nat.le_refl|].
  cbn [replace_scan]. destruct k as [|k].
  - destruct (prefix old (String c s)).
    + cbn [append String.length]. specialize (IH (String.length old - 1)). lia.
    + cbn [String.length]. specialize (IH 0). lia.
  - cbn [String.length]. specialize (IH k). lia.
Qed.

(** A string that deleting [old] leaves unchanged holds no [old]. *)
Lemma replace_fixed old s :
  old <> EmptyString ->
  replace s old EmptyString = s -> contains s old = false.
Proof.
  intros Hne. induction s as [|c s IH]; intros H.
  - cbn [contains]. destruct old; [now elim Hne | reflexivity].
  - cbn [contains]. unfold replace in H. cbn [replace_scan] in H.
    destruct (prefix old (String c s)) eqn:P.
    + exfalso. cbn [append] in H.
      pose proof (replace_scan_length old s (String.length old - 1)) as L.
      rewrite H in L. cbn [String.length] in L. lia.
    + injection H as H. cbn [orb]. now apply IH.
Qed.

Lemma digit_not_t c : digit c = true -> c <> "t"%char.
Proof. intros H ->. discriminate H. Qed.

Lemma digit_not_hyphen c : digit c = true -> not_hyphen c = true.
Proof.
  intros H. unfold not_hyphen. apply negb_true_iff, Ascii.eqb_neq.
  intros ->. discriminate H.
Qed.

Lemma digits_not_hyphen d : all digit d = true -> all not_hyphen d = true.
Proof.
  induction d as [|c d IH]; simpl; intros H; [reflexivity|].
  apply andb_prop in H as [Hc Hd].
  now rewrite (digit_not_hyphen c Hc), IH.
Qed.

(** A run of digits holds no [tpu-]. *)
Lemma digits_no_tpu d : all digit d = true -> contains d "tpu-" = false.
Proof.
  induction d as [|c d IH]; intros H; [reflexivity|].
  simpl in H. apply andb_prop in H as [Hc Hd].
  cbn [contains]. rewrite (IH Hd), orb_false_r.
  cbn [prefix]. destruct (ascii_dec "t" c) as [E|_]; [|reflexivity].
  symmetry in E. now apply digit_not_t in E.
Qed.

Lemma contains_append_false s t sub :
  contains (s ++ t) sub = false -> contains t sub = false.
Proof.
  induction s as [|c s IH]; intros H; [exact H|].
  cbn [append contains] in H. apply orb_false_elim in H as [_ H]. auto.
Qed.

End PyStrMore.

(** ** More on the instance-type parser *)

Module ParserMore.
Import Re PyStr PyStrFacts ReFacts ParserFacts PyStrMore.

Lemma removeprefix_tpu t : removeprefix ("tpu-" ++ t) "tpu-" = t.
Proof. unfold removeprefix. now rewrite prefix_append. Qed.

Lemma removeprefix_v t : removeprefix (String "v" t) "tpu-" = String "v" t.
Proof. reflexivity. Qed.

(** Without its optional [tpu-] an accepted string is accepted still, and
    has no [tpu-] in front. *)
Lemma tpu_shape_removeprefix s :
  tpu_shape s ->
  tpu_shape (removeprefix s "tpu-") /\
  removeprefix (removeprefix s "tpu-") "tpu-" = removeprefix s "tpu-".
Proof.
  intros (p & m & d & -> & [-> | ->] & Hm1 & Hm2 & Hd1 & Hd2).
  - change (EmptyString ++ "v" ++ m ++ "-" ++ d) with (String "v" (m ++ "-" ++ d)).
    rewrite !removeprefix_v. split; [|reflexivity].
    exists EmptyString, m, d. repeat split; auto.
  - rewrite removeprefix_tpu.
    change ("v" ++ m ++ "-" ++ d) with (String "v" (m ++ "-" ++ d)).
    rewrite removeprefix_v. split; [|reflexivity].
    exists EmptyString, m, d. repeat split; auto.
Qed.

Lemma infer_tpu_version_in t v :
  infer_tpu_version t = Ok v -> In v _TPU_VERSIONS.
Proof.
  unfold infer_tpu_version.
  destruct (infer_tpu_type t) as [n|e]; cbn [bind]; [|discriminate].
  destruct (str_in _ _TPU_VERSIONS) eqn:E; cbn [negb]; [|discriminate].
  intros [= <-]. now apply str_in_iff.
Qed.

(** The errors of the version parser. *)
Lemma infer_tpu_version_Raise t e :
  infer_tpu_version t = Raise e ->
  (~ tpu_shape t /\ e = NotTpuError ("Invalid TPU instance: " ++ t)) \/
  (tpu_shape t /\
   exists v, ~ In v _TPU_VERSIONS /\ e = ValueError (unknown_version_msg v)).
Proof.
  unfold infer_tpu_version.
  destruct (infer_tpu_type t) as [n|e0] eqn:T; cbn [bind].
  - apply infer_tpu_type_Ok in T as [Hs _].
    destruct (str_in _ _TPU_VERSIONS) eqn:E; cbn [negb]; [discriminate|].
    intros [= <-]. right. split; [exact Hs|].
    eexists. split; [|reflexivity].
    intros Hin. apply str_in_iff in Hin. congruence.
  - intros [= <-]. left. now apply infer_tpu_type_Raise.
Qed.

(** A descriptor whose body holds no [tpu-]: the type is the body, the
    candidate version is the part before the last hyphen. *)
Lemma clean_descriptor p m d :
  p = EmptyString \/ p = "tpu-" ->
  m <> EmptyString -> all dot m = true ->
  d <> EmptyString -> all digit d = true ->
  contains ("v" ++ m ++ "-" ++ d) "tpu-" = false ->
  infer_tpu_type (p ++ "v" ++ m ++ "-" ++ d) = Ok ("v" ++ m ++ "-" ++ d) /\
  infer_tpu_version (p ++ "v" ++ m ++ "-" ++ d) =
    if str_in ("v" ++ m) _TPU_VERSIONS then Ok ("v" ++ m)
    else Raise (ValueError (unknown_version_msg ("v" ++ m))).
Proof.
  intros Hp Hm1 Hm2 Hd1 Hd2 Hc.
  assert (Hs : tpu_shape (p ++ "v" ++ m ++ "-" ++ d)).
  { exists p, m, d. repeat split; auto. }
  assert (Hr : removeprefix (p ++ "v" ++ m ++ "-" ++ d) "tpu-" =
               "v" ++ m ++ "-" ++ d).
  { destruct Hp as [-> | ->]; [reflexivity | apply removeprefix_tpu]. }
  assert (Ht : infer_tpu_type (p ++ "v" ++ m ++ "-" ++ d) =
               Ok ("v" ++ m ++ "-" ++ d)).
  { rewrite <- Hr at 2. apply infer_tpu_type_prefix_only; [exact Hs|].
    now rewrite Hr. }
  split; [exact Ht|].
  apply (infer_tpu_version_cut _ _ ("v" ++ m) d Ht); [reflexivity|].
  now apply digits_not_hyphen.
Qed.

(** The five versions, each as [v] and a rest. *)
Lemma version_rest v :
  In v _TPU_VERSIONS ->
  exists m, v = "v" ++ m /\ m <> EmptyString /\ all dot m = true /\
            forall d, all digit d = true ->
                      contains ("v" ++ m ++ "-" ++ d) "tpu-" = false.
Proof.
  intros H. simpl in H.
  destruct H as [<-|[<-|[<-|[<-|[<-|[]]]]]];
    [exists "3" | exists "4" | exists "5litepod" | exists "5p" | exists "6e"];
    (split; [reflexivity|]; split; [discriminate|]; split; [reflexivity|];
     intros d Hd; simpl; now rewrite (digits_no_tpu d Hd)).
Qed.

End ParserMore.

Module ParserExtras.
Import Re PyStr PyStrFacts ReFacts ParserFacts PyStrMore ParserMore.

(** X1: on an accepted input in which [tpu-] occurs as the leading prefix at
    most, [infer_tpu_type] returns the input without that prefix, and the
    rest as it stands. *)
Theorem infer_tpu_type_strips_leading_prefix s :
  tpu_shape s ->
  contains (removeprefix s "tpu-") "tpu-" = false ->
  infer_tpu_type s = Ok (removeprefix s "tpu-").
Proof. apply infer_tpu_type_prefix_only. Qed.

Lemma infer_tpu_type_strips_leading_prefix_witness :
  infer_tpu_type "tpu-v5p-2048" = Ok "v5p-2048".
Proof.
  apply (infer_tpu_type_strips_leading_prefix "tpu-v5p-2048"); [|reflexivity].
  exists "tpu-", "5p", "2048". repeat split; auto; discriminate.
Defined.

(** X2: whatever [infer_tpu_type] returns starts with the letter [v], is not
    empty, and is no longer than the input. *)
Theorem infer_tpu_type_result s t :
  infer_tpu_type s = Ok t ->
  startswith t "v" = true /\ t <> EmptyString /\
  String.length t <= String.length s.
Proof.
  intros H. apply infer_tpu_type_Ok in H as [Hs ->].
  assert (Hv : exists y, replace s "tpu-" EmptyString = String "v" y).
  { destruct Hs as (p & m & d & -> & [-> | ->] & _).
    - change (EmptyString ++ "v" ++ m ++ "-" ++ d)
        with (String "v" (m ++ "-" ++ d)).
      rewrite replace_copy by reflexivity. eexists; reflexivity.
    - rewrite replace_occurrence by discriminate.
      change ("v" ++ m ++ "-" ++ d) with (String "v" (m ++ "-" ++ d)).
      rewrite replace_copy by reflexivity. eexists; reflexivity. }
  destruct Hv as [y Hy]. split; [|split].
  - rewrite Hy. unfold startswith.
    change (String "v" y) with ("v" ++ y). apply prefix_append.
  - rewrite Hy. discriminate.
  - apply replace_scan_length.
Qed.

Lemma infer_tpu_type_result_witness :
  startswith "v4-8" "v" = true /\ "v4-8" <> EmptyString /\
  String.length "v4-8" <= String.length "vtpu-4-8".
Proof.
  apply (infer_tpu_type_result "vtpu-4-8" "v4-8"). reflexivity.
Defined.

(** X3: [infer_tpu_type] returns its input unchanged exactly when the input
    is accepted and holds no [tpu-] at all. *)
Theorem infer_tpu_type_identity s :
  infer_tpu_type s = Ok s <-> tpu_shape s /\ contains s "tpu-" = false.
Proof.
  rewrite infer_tpu_type_Ok. split; intros [Hs H]; (split; [exact Hs|]).
  - apply replace_fixed; [discriminate | now symmetry].
  - symmetry. apply replace_absent; [discriminate | exact H].
Qed.

Lemma infer_tpu_type_identity_witness :
  infer_tpu_type "v5litepod-16" = Ok "v5litepod-16".
Proof.
  apply (proj2 (infer_tpu_type_identity "v5litepod-16")). split; [|reflexivity].
  exists EmptyString, "5litepod", "16". repeat split; auto; discriminate.
Defined.

(** X4: for a descriptor [[tpu-]v<m>-<digits>] whose body holds no [tpu-],
    the type is the body [v<m>-<digits>], and the version is [v<m>], the
    whole of what stands before the last hyphen, hyphens included: it is
    returned when it is one of the five versions and named in the
    [ValueError] when it is not. *)
Theorem infer_on_clean_descriptor p m d :
  p = EmptyString \/ p = "tpu-" ->
  m <> EmptyString -> all dot m = true ->
  d <> EmptyString -> all digit d = true ->
  contains ("v" ++ m ++ "-" ++ d) "tpu-" = false ->
  infer_tpu_type (p ++ "v" ++ m ++ "-" ++ d) = Ok ("v" ++ m ++ "-" ++ d) /\
  (In ("v" ++ m) _TPU_VERSIONS ->
   infer_tpu_version (p ++ "v" ++ m ++ "-" ++ d) = Ok ("v" ++ m)) /\
  (~ In ("v" ++ m) _TPU_VERSIONS ->
   infer_tpu_version (p ++ "v" ++ m ++ "-" ++ d) =
     Raise (ValueError ("Unknown TPU version " ++ "v" ++ m ++
        ". Expected one of ('v3', 'v4', 'v5litepod', 'v5p', 'v6e')"))).
Proof.
  intros Hp Hm1 Hm2 Hd1 Hd2 Hc.
  destruct (clean_descriptor p m d Hp Hm1 Hm2 Hd1 Hd2 Hc) as [Ht Hv].
  split; [exact Ht|]. rewrite Hv.
  destruct (str_in ("v" ++ m) _TPU_VERSIONS) eqn:E; split; intros H.
  - reflexivity.
  - apply str_in_iff in E. now elim H.
  - apply str_in_iff in H. congruence.
  - reflexivity.
Qed.

Lemma infer_on_clean_descriptor_witness :
  infer_tpu_type "tpu-v5-lite-8" = Ok "v5-lite-8" /\
  infer_tpu_version "tpu-v5-lite-8" =
    Raise (ValueError
      "Unknown TPU version v5-lite. Expected one of ('v3', 'v4', 'v5litepod', 'v5p', 'v6e')").
Proof.
  pose proof (infer_on_clean_descriptor "tpu-" "5-lite" "8") as H.
  destruct H as (Ht & _ & Hv);
    [right; reflexivity | discriminate | reflexivity | discriminate
    | reflexivity | reflexivity |].
  split; [exact Ht|]. apply Hv.
  simpl. intros [E|[E|[E|[E|[E|[]]]]]]; discriminate E.
Defined.

(** X5: for each of the five versions, with or without [tpu-] in front and
    with any non-empty run of digits behind the hyphen, [infer_tpu_type]
    returns [<version>-<digits>] and [infer_tpu_version] the version. *)
Theorem infer_supported_descriptor p v d :
  p = EmptyString \/ p = "tpu-" ->
  In v _TPU_VERSIONS ->
  d <> EmptyString -> all digit d = true ->
  infer_tpu_type (p ++ v ++ "-" ++ d) = Ok (v ++ "-" ++ d) /\
  infer_tpu_version (p ++ v ++ "-" ++ d) = Ok v.
Proof.
  intros Hp Hv Hd1 Hd2.
  destruct (version_rest v Hv) as (m & -> & Hm1 & Hm2 & Hc).
  destruct (clean_descriptor p m d Hp Hm1 Hm2 Hd1 Hd2 (Hc d Hd2)) as [Ht Hr].
  split; [exact Ht|].
  change (("v" ++ m) ++ "-" ++ d) with ("v" ++ m ++ "-" ++ d).
  rewrite Hr. apply str_in_iff in Hv. now rewrite Hv.
Qed.

Lemma infer_supported_descriptor_witness :
  infer_tpu_type ("tpu-" ++ "v5litepod" ++ "-" ++ "256") = Ok "v5litepod-256" /\
  infer_tpu_version ("tpu-" ++ "v5litepod" ++ "-" ++ "256") = Ok "v5litepod".
Proof.
  apply (infer_supported_descriptor "tpu-" "v5litepod" "256");
    [right; reflexivity | simpl; tauto | discriminate | reflexivity].
Defined.

(** X6: on an accepted input in which [tpu-] occurs as the leading prefix at
    most, normalising twice is normalising once, and the version of the
    normalised token is the version of the input. *)
Theorem infer_tpu_type_idempotent s :
  tpu_shape s ->
  contains (removeprefix s "tpu-") "tpu-" = false ->
  infer_tpu_type (removeprefix s "tpu-") = Ok (removeprefix s "tpu-") /\
  infer_tpu_version (removeprefix s "tpu-") = infer_tpu_version s.
Proof.
  intros Hs Hc.
  destruct (tpu_shape_removeprefix s Hs) as [Hs' Hr].
  assert (Ht : infer_tpu_type (removeprefix s "tpu-") =
               Ok (removeprefix s "tpu-")).
  { rewrite <- Hr at 2. apply infer_tpu_type_prefix_only; [exact Hs'|].
    now rewrite Hr. }
  split; [exact Ht|].
  unfold infer_tpu_version.
  now rewrite Ht, (infer_tpu_type_prefix_only s Hs Hc).
Qed.

Lemma infer_tpu_type_idempotent_witness :
  infer_tpu_type "v6e-256" = Ok "v6e-256" /\
  infer_tpu_version "v6e-256" = infer_tpu_version "tpu-v6e-256".
Proof.
  apply (infer_tpu_type_idempotent "tpu-v6e-256"); [|reflexivity].
  exists "tpu-", "6e", "256". repeat split; auto; discriminate.
Defined.

(** X7: [infer_tpu_version] raises [NotTpuError] with the input in the
    message exactly when the input is not accepted; on an accepted input it
    can only raise the [ValueError] for an unknown version, naming a token
    that is none of the five versions. *)
Theorem infer_tpu_version_errors t :
  (infer_tpu_version t = Raise (NotTpuError ("Invalid TPU instance: " ++ t))
   <-> ~ tpu_shape t) /\
  (forall e, infer_tpu_version t = Raise e -> tpu_shape t ->
     exists v, ~ In v _TPU_VERSIONS /\
       e = ValueError ("Unknown TPU version " ++ v ++
             ". Expected one of ('v3', 'v4', 'v5litepod', 'v5p', 'v6e')")).
Proof.
  split.
  - split.
    + intros H Hs.
      apply infer_tpu_version_Raise in H as [[Hn _]|(_ & v & _ & E)];
        [now elim Hn | discriminate E].
    + intros Hn. unfold infer_tpu_version.
      assert (E : infer_tpu_type t =
                  Raise (NotTpuError ("Invalid TPU instance: " ++ t)))
        by now apply infer_tpu_type_Raise.
      now rewrite E.
  - intros e H Hs.
    apply infer_tpu_version_Raise in H as [[Hn _]|(_ & v & Hv & ->)];
      [now elim Hn|]. now exists v.
Qed.

Lemma infer_tpu_version_errors_witness :
  exists v, ~ In v _TPU_VERSIONS /\
    ValueError "Unknown TPU version v7. Expected one of ('v3', 'v4', 'v5litepod', 'v5p', 'v6e')" =
    ValueError ("Unknown TPU version " ++ v ++
             ". Expected one of ('v3', 'v4', 'v5litepod', 'v5p', 'v6e')").
Proof.
  apply (proj2 (infer_tpu_version_errors "v7-8")); [reflexivity|].
  exists EmptyString, "7", "8". repeat split; auto; discriminate.
Defined.

(** X17: a [tpu-] in front is optional and nothing more: [tpu-<body>]
    is accepted exactly when [<body>] starts with [v] and is accepted, and
    then the two give the same token; so a second [tpu-] in front is always
    rejected. *)
Theorem infer_tpu_type_optional_prefix body :
  (forall t, infer_tpu_type ("tpu-" ++ body) = Ok t <->
             startswith body "v" = true /\ infer_tpu_type body = Ok t) /\
  infer_tpu_type ("tpu-" ++ "tpu-" ++ body) =
    Raise (NotTpuError ("Invalid TPU instance: " ++ "tpu-" ++ "tpu-" ++ body)).
Proof.
  assert (A : forall b, tpu_shape ("tpu-" ++ b) <->
                        startswith b "v" = true /\ tpu_shape b).
  { intros b. split.
    - intros (p & m & d & E & [-> | ->] & Hm1 & Hm2 & Hd1 & Hd2);
        [discriminate E|].
      injection E as ->. split.
      + exact (prefix_append "v" (m ++ "-" ++ d)).
      + exists EmptyString, m, d. repeat split; auto.
    - intros [Hv (p & m & d & -> & [-> | ->] & Hm1 & Hm2 & Hd1 & Hd2)].
      + exists "tpu-", m, d. repeat split; auto.
      + discriminate Hv. }
  split.
  - intros t. rewrite !infer_tpu_type_Ok, A.
    rewrite replace_occurrence by discriminate. cbn [append]. tauto.
  - apply infer_tpu_type_Raise. split; [|reflexivity].
    intros H. apply A in H as [Hv _]. discriminate Hv.
Qed.

Lemma infer_tpu_type_optional_prefix_witness :
  infer_tpu_type ("tpu-" ++ "v4-8") = Ok "v4-8".
Proof.
  apply (proj2 (proj1 (infer_tpu_type_optional_prefix "v4-8") "v4-8")).
  split; reflexivity.
Defined.

End ParserExtras.

(** ** More on the option resolver *)

Module ResolverMore.
Import PyStr PyStrFacts ParserFacts PyStrMore ParserMore ResolverClaims.

(** No overlay overwrites or reorders what is there: the updates amount to
    appending. *)
Lemma version_options_exact version :
  version_options version = (base_options ++ overlay_of version)%list.
Proof.
  unfold version_options, overlay_of.
  destruct (String.eqb version "v4") eqn:E4.
  - apply String.eqb_eq in E4. subst version. reflexivity.
  - destruct (String.eqb version "v6e"); reflexivity.
Qed.

Lemma update_multislice version :
  dict_update (base_options ++ overlay_of version)%list multislice_options =
    (base_options ++ overlay_of version ++ multislice_options)%list.
Proof.
  unfold overlay_of.
  destruct (String.eqb version "v4"); [reflexivity|].
  destruct (String.eqb version "v6e"); reflexivity.
Qed.

Lemma default_xla_options_tpu_exact instance_type num_slices :
  default_xla_options instance_type num_slices "tpu" =
    tpu_type <- infer_tpu_type instance_type ;;
    version <- infer_tpu_version tpu_type ;;
    Ok (base_options ++ overlay_of version ++ slices_overlay num_slices)%list.
Proof.
  rewrite default_xla_options_tpu.
  destruct (infer_tpu_type instance_type) as [t|e]; [|reflexivity].
  cbn [bind]. destruct (infer_tpu_version t) as [version|e]; [|reflexivity].
  cbn [bind]. unfold slices_overlay. rewrite version_options_exact.
  destruct (num_slices >? 1)%Z.
  - now rewrite update_multislice.
  - now rewrite app_nil_r.
Qed.

Lemma default_xla_options_Ok instance_type num_slices backend d :
  default_xla_options instance_type num_slices backend = Ok d ->
  backend = "tpu" /\
  exists t version,
    infer_tpu_type instance_type = Ok t /\
    infer_tpu_version t = Ok version /\
    d = (base_options ++ overlay_of version ++ slices_overlay num_slices)%list.
Proof.
  intros H.
  assert (Hb : backend = "tpu").
  { unfold default_xla_options in H.
    destruct (String.eqb backend "tpu") eqn:E; [now apply String.eqb_eq|].
    discriminate H. }
  subst backend. split; [reflexivity|].
  rewrite default_xla_options_tpu_exact in H.
  destruct (infer_tpu_type instance_type) as [t|e] eqn:Ht; [|discriminate H].
  cbn [bind] in H.
  destruct (infer_tpu_version t) as [version|e] eqn:Hv; [|discriminate H].
  cbn [bind] in H. injection H as <-. now exists t, version.
Qed.

Lemma default_xla_options_backend_raise instance_type num_slices backend :
  backend <> "tpu" ->
  default_xla_options instance_type num_slices backend =
    Raise (NotImplementedError backend).
Proof.
  intros H. unfold default_xla_options.
  apply String.eqb_neq in H. now rewrite H.
Qed.

End ResolverMore.

Module ResolverExtras.
Import PyStr PyStrFacts ParserFacts PyStrMore ParserMore ResolverClaims ResolverMore.

(** X8: a call that returns a mapping had backend [tpu]; its instance type
    was accepted and the version inferred from its normalised token is one
    of the five; the mapping is the three base flags, then the two v4 flags
    when that version is [v4], the sixteen v6e flags when it is [v6e] and
    nothing otherwise, then the three multi-slice flags when there is more
    than one slice, in that order and with the values written out below. *)
Theorem default_xla_options_range instance_type num_slices backend d :
  default_xla_options instance_type num_slices backend = Ok d ->
  backend = "tpu" /\
  exists t version,
    infer_tpu_type instance_type = Ok t /\
    infer_tpu_version t = Ok version /\
    In version ["v3"; "v4"; "v5litepod"; "v5p"; "v6e"] /\
    d =
      ([ ("xla_tpu_spmd_rng_bit_generator_unsafe", VBool true);
         ("xla_tpu_enable_latency_hiding_scheduler", VStr "true");
         ("xla_tpu_perform_spmd_cse_prevention", VStr "false") ]
       ++
       (if String.eqb version "v4" then
          [ ("xla_enable_async_all_gather", VStr "true");
         ("xla_enable_async_collective_permute", VStr "true") ]
        else if String.eqb version "v6e" then
          [ ("xla_tpu_scoped_vmem_limit_kib", VStr "98304");
         ("xla_tpu_enable_async_collective_fusion", VStr "true");
         ("xla_tpu_enable_async_collective_fusion_fuse_all_gather", VStr "true");
         ("xla_tpu_enable_async_collective_fusion_multiple_steps", VStr "true");
         ("xla_tpu_overlap_compute_collective_tc", VStr "true");
         ("xla_enable_async_all_gather", VStr "true");
         ("xla_tpu_enable_all_experimental_scheduler_features", VStr "true");
         ("xla_tpu_enable_scheduler_memory_pressure_tracking", VStr "ENABLED");
         ("xla_tpu_host_transfer_overlap_limit", VInt 24);
         ("xla_tpu_aggressive_opt_barrier_removal", VStr "ENABLED");
         ("xla_lhs_prioritize_async_depth_over_stall", VStr "ENABLED");
         ("xla_tpu_enable_ag_backward_pipelining", VStr "true");
         ("xla_should_allow_loop_variant_parameter_in_chain", VStr "ENABLED");
         ("xla_should_add_loop_invariant_op_in_chain", VStr "ENABLED");
         ("xla_max_concurrent_host_send_recv", VInt 100);
         ("xla_latency_hiding_scheduler_rerun", VInt 0) ]
        else [])
       ++
       (if (num_slices >? 1)%Z then
          [ ("xla_tpu_enable_megascale_barrier", VStr "true");
         ("xla_tpu_enable_data_parallel_all_reduce_opt", VStr "true");
         ("xla_tpu_data_parallel_opt_different_sized_ops", VStr "true") ]
        else []))%list.
Proof.
  intros H. apply default_xla_options_Ok in H as (Hb & t & version & Ht & Hv & Hd).
  split; [exact Hb|]. exists t, version.
  split; [exact Ht|]. split; [exact Hv|]. split; [|exact Hd].
  now apply infer_tpu_version_in in Hv.
Qed.

Lemma default_xla_options_range_witness :
  exists t version,
    infer_tpu_type "tpu-v5p-128" = Ok t /\
    infer_tpu_version t = Ok version /\
    In version ["v3"; "v4"; "v5litepod"; "v5p"; "v6e"] /\
    (base_options ++ multislice_options)%list =
      (base_options ++ overlay_of version ++ slices_overlay 4)%list.
Proof.
  destruct (default_xla_options_range "tpu-v5p-128" 4 "tpu"
              (base_options ++ multislice_options)%list eq_refl)
    as (_ & t & version & Ht & Hv & Hin & Hd).
  exists t, version. repeat split; assumption.
Defined.

(** X9: in every mapping the resolver returns, no key occurs twice, the
    first three entries are the base flags with their base values, and the
    flag only the v4 overlay sets never comes with a flag only the v6e
    overlay sets. *)
Theorem default_xla_options_invariants instance_type num_slices backend d :
  default_xla_options instance_type num_slices backend = Ok d ->
  NoDup (keys d) /\
  firstn 3 d = base_options /\
  holds_all d base_options /\
  (dict_get "xla_enable_async_collective_permute" d = None \/
   holds_none d v6e_specific_keys).
Proof.
  intros H. apply default_xla_options_Ok in H as (_ & t & version & _ & Hv & ->).
  apply infer_tpu_version_in in Hv. unfold slices_overlay.
  simpl in Hv.
  destruct Hv as [<-|[<-|[<-|[<-|[<-|[]]]]]]; destruct (num_slices >? 1)%Z;
    (split; [apply distinct_NoDup; reflexivity|];
     split; [reflexivity|];
     split; [repeat constructor|]);
    first [ left; reflexivity | right; repeat constructor ].
Qed.

Lemma default_xla_options_invariants_witness :
  NoDup (keys (base_options ++ v4_options)%list) /\
  firstn 3 (base_options ++ v4_options)%list = base_options /\
  holds_all (base_options ++ v4_options)%list base_options /\
  (dict_get "xla_enable_async_collective_permute"
     (base_options ++ v4_options)%list = None \/
   holds_none (base_options ++ v4_options)%list v6e_specific_keys).
Proof.
  apply (default_xla_options_invariants "v4-8" 1 "tpu"). reflexivity.
Defined.

(** X10: for each of the five versions, with or without [tpu-] in front,
    any non-empty run of digits and any slice count, the resolver succeeds
    and returns the base flags, the overlay of the version and the overlay
    of the slice count; for v3, v5litepod and v5p with one slice at most
    that is the three base flags alone. *)
Theorem default_xla_options_supported p v d num_slices :
  p = EmptyString \/ p = "tpu-" ->
  In v _TPU_VERSIONS ->
  d <> EmptyString -> all Re.digit d = true ->
  default_xla_options (p ++ v ++ "-" ++ d) num_slices "tpu" =
    Ok (base_options ++ overlay_of v ++ slices_overlay num_slices)%list /\
  (v <> "v4" -> v <> "v6e" -> (num_slices <= 1)%Z ->
   default_xla_options (p ++ v ++ "-" ++ d) num_slices "tpu" = Ok base_options).
Proof.
  intros Hp Hv Hd1 Hd2.
  assert (E : default_xla_options (p ++ v ++ "-" ++ d) num_slices "tpu" =
    Ok (base_options ++ overlay_of v ++ slices_overlay num_slices)%list).
  { rewrite default_xla_options_tpu_exact.
    destruct (version_rest v Hv) as (m & -> & Hm1 & Hm2 & Hc).
    destruct (clean_descriptor p m d Hp Hm1 Hm2 Hd1 Hd2 (Hc d Hd2)) as [Ht _].
    change (("v" ++ m) ++ "-" ++ d) with ("v" ++ m ++ "-" ++ d).
    rewrite Ht. cbn [bind].
    destruct (clean_descriptor EmptyString m d (or_introl eq_refl)
                Hm1 Hm2 Hd1 Hd2 (Hc d Hd2)) as [_ Hr].
    change (EmptyString ++ "v" ++ m ++ "-" ++ d)
      with ("v" ++ m ++ "-" ++ d) in Hr.
    rewrite Hr. apply str_in_iff in Hv. now rewrite Hv. }
  split; [exact E|].
  intros N4 N6 Hn. rewrite E. unfold overlay_of, slices_overlay.
  apply String.eqb_neq in N4, N6. rewrite N4, N6.
  assert (G : (num_slices >? 1)%Z = false)
    by (rewrite Z.gtb_ltb; apply Z.ltb_ge; lia).
  now rewrite G.
Qed.

Lemma default_xla_options_supported_witness :
  default_xla_options ("tpu-" ++ "v5p" ++ "-" ++ "2048") 0 "tpu" = Ok base_options.
Proof.
  refine (proj2 (default_xla_options_supported "tpu-" "v5p" "2048" 0 _ _ _ _) _ _ _).
  - right; reflexivity.
  - simpl; tauto.
  - discriminate.
  - reflexivity.
  - discriminate.
  - discriminate.
  - discriminate.
Defined.

(** X11: the resolver raises [NotImplementedError] for a backend other than
    [tpu] and for nothing else; with backend [tpu] an unsupported or
    malformed instance type raises [NotTpuError] or [ValueError]. *)
Theorem default_xla_options_errors instance_type num_slices backend :
  (forall x,
     default_xla_options instance_type num_slices backend =
       Raise (NotImplementedError x) <-> backend <> "tpu" /\ x = backend) /\
  (forall e,
     backend = "tpu" ->
     default_xla_options instance_type num_slices backend = Raise e ->
     (exists msg, e = NotTpuError msg) \/ (exists msg, e = ValueError msg)).
Proof.
  assert (T : forall e,
     default_xla_options instance_type num_slices "tpu" = Raise e ->
     (exists msg, e = NotTpuError msg) \/ (exists msg, e = ValueError msg)).
  { intros e. rewrite default_xla_options_tpu_exact.
    destruct (infer_tpu_type instance_type) as [t|e0] eqn:Ht; cbn [bind].
    - destruct (infer_tpu_version t) as [v|e1] eqn:Hv; cbn [bind];
        [discriminate|].
      intros [= <-].
      apply infer_tpu_version_Raise in Hv as [[_ ->]|(_ & v & _ & ->)]; eauto.
    - intros [= <-]. apply infer_tpu_type_Raise in Ht as [_ ->]. eauto. }
  split.
  - intros x. split.
    + intros H. destruct (String.eqb backend "tpu") eqn:E.
      * apply String.eqb_eq in E. subst backend.
        apply T in H as [[msg H]|[msg H]]; discriminate H.
      * apply String.eqb_neq in E. split; [exact E|].
        rewrite (default_xla_options_backend_raise _ _ _ E) in H.
        now injection H.
    + intros [E ->]. now apply default_xla_options_backend_raise.
  - intros e -> H. now apply T.
Qed.

Lemma default_xla_options_errors_witness :
  (exists msg,
     ValueError (unknown_version_msg "v7") = NotTpuError msg) \/
  (exists msg,
     ValueError (unknown_version_msg "v7") = ValueError msg).
Proof.
  apply (proj2 (default_xla_options_errors "v7-8" 1 "tpu")); reflexivity.
Defined.

(** X12: on an accepted input in which [tpu-] occurs as the leading prefix
    at most, the resolver works with the version [infer_tpu_version] gives
    for that input: normalising before the version is inferred changes
    nothing. *)
Theorem default_xla_options_clean s num_slices :
  tpu_shape s ->
  contains (removeprefix s "tpu-") "tpu-" = false ->
  default_xla_options s num_slices "tpu" =
    version <- infer_tpu_version s ;;
    Ok (base_options ++ overlay_of version ++ slices_overlay num_slices)%list.
Proof.
  intros Hs Hc. rewrite default_xla_options_tpu_exact.
  rewrite (infer_tpu_type_prefix_only s Hs Hc). cbn [bind].
  destruct (tpu_shape_removeprefix s Hs) as [Hs' Hr].
  assert (E : infer_tpu_version (removeprefix s "tpu-") = infer_tpu_version s).
  { unfold infer_tpu_version.
    rewrite (infer_tpu_type_prefix_only s Hs Hc).
    rewrite (infer_tpu_type_prefix_only _ Hs') by now rewrite Hr.
    now rewrite Hr. }
  now rewrite E.
Qed.

Lemma default_xla_options_clean_witness :
  default_xla_options "tpu-v4-16" 2 "tpu" =
    version <- infer_tpu_version "tpu-v4-16" ;;
    Ok (base_options ++ overlay_of version ++ slices_overlay 2)%list.
Proof.
  apply (default_xla_options_clean "tpu-v4-16" 2); [|reflexivity].
  exists "tpu-", "4", "16". repeat split; auto; discriminate.
Defined.

(** X13: the resolver validates the normalised token a second time.  When
    the input is accepted and its normalised token is not, the resolver
    raises [NotTpuError] with the normalised token in the message, not the
    input, whatever [infer_tpu_version] makes of the input. *)
Theorem default_xla_options_second_check instance_type num_slices t :
  infer_tpu_type instance_type = Ok t ->
  ~ tpu_shape t ->
  default_xla_options instance_type num_slices "tpu" =
    Raise (NotTpuError ("Invalid TPU instance: " ++ t)).
Proof.
  intros Ht Hn. rewrite default_xla_options_tpu_exact, Ht. cbn [bind].
  unfold infer_tpu_version.
  assert (E : infer_tpu_type t =
              Raise (NotTpuError ("Invalid TPU instance: " ++ t)))
    by now apply infer_tpu_type_Raise.
  now rewrite E.
Qed.

Lemma default_xla_options_second_check_witness :
  infer_tpu_version "vtpu-4" = Ok "v4" /\
  default_xla_options "vtpu-4" 1 "tpu" =
    Raise (NotTpuError "Invalid TPU instance: v4").
Proof.
  split; [reflexivity|].
  apply (default_xla_options_second_check "vtpu-4" 1 "v4"); [reflexivity|].
  intros H. apply accepted_iff in H. discriminate H.
Defined.

End ResolverExtras.

(** ** More on the flag serialiser *)

Module SerialiserExtras.
Import PyStr PyStrFacts PyStrMore ResolverMore SerialiserClaims.

Lemma join_app sep l1 l2 :
  l1 <> [] -> l2 <> [] ->
  join sep (l1 ++ l2)%list = join sep l1 ++ sep ++ join sep l2.
Proof.
  unfold join. intros H1 H2.
  induction l1 as [|x l1 IH]; [now elim H1|].
  destruct l1 as [|y l1].
  - destruct l2 as [|z l2]; [now elim H2 | reflexivity].
  - change (String.concat sep ((x :: y :: l1) ++ l2)%list)
      with (x ++ sep ++ String.concat sep ((y :: l1) ++ l2)%list).
    rewrite IH by discriminate.
    change (String.concat sep (x :: y :: l1))
      with (x ++ sep ++ String.concat sep (y :: l1)).
    now rewrite !append_assoc.
Qed.

Lemma xla_flags_map d :
  xla_flags_from_options d = join " " (map render_flag d).
Proof. unfold xla_flags_from_options. now rewrite flags_loop. Qed.

Lemma xla_flags_from_options_app_base (rest : dict) :
  rest <> [] ->
  xla_flags_from_options (base_options ++ rest)%list =
    "--xla_tpu_spmd_rng_bit_generator_unsafe=1 --xla_tpu_enable_latency_hiding_scheduler=true --xla_tpu_perform_spmd_cse_prevention=false"
    ++ " " ++ xla_flags_from_options rest.
Proof.
  intros H. rewrite !xla_flags_map, map_app.
  rewrite join_app; [reflexivity | discriminate |].
  intros E; apply map_eq_nil in E; contradiction.
Qed.

(** X14: the flag string of two mappings laid end to end is the two flag
    strings with one space between, when neither mapping is empty. *)
Theorem xla_flags_from_options_app (d1 d2 : dict) :
  d1 <> [] -> d2 <> [] ->
  xla_flags_from_options (d1 ++ d2)%list =
    xla_flags_from_options d1 ++ " " ++ xla_flags_from_options d2.
Proof.
  intros H1 H2. rewrite !xla_flags_map, map_app.
  apply join_app; intros E; apply map_eq_nil in E; contradiction.
Qed.

Lemma xla_flags_from_options_app_witness :
  xla_flags_from_options ([("a", VBool false)] ++ [("b", VInt 7)])%list =
    xla_flags_from_options [("a", VBool false)] ++ " " ++
    xla_flags_from_options [("b", VInt 7)].
Proof.
  apply xla_flags_from_options_app; discriminate.
Defined.

(** X15: the flag string is empty for the empty mapping only; for any other
    mapping it starts with [--] followed by the first key, [=] and the first
    value. *)
Theorem xla_flags_from_options_first (d : dict) :
  (xla_flags_from_options d = EmptyString <-> d = []) /\
  (forall k v d', d = (k, v) :: d' ->
     startswith (xla_flags_from_options d)
                ("--" ++ k ++ "=" ++ render_value v) = true).
Proof.
  split.
  - split; [|now intros ->].
    destruct d as [|kv d]; [reflexivity|].
    rewrite xla_flags_map. cbn [map]. rewrite join_space.
    unfold render_flag. intros H. discriminate H.
  - intros k v d' ->. rewrite xla_flags_map. cbn [map]. rewrite join_space.
    unfold startswith. apply prefix_append.
Qed.

Lemma xla_flags_from_options_first_witness :
  startswith (xla_flags_from_options [("k", VBool true); ("l", VStr "x")])
             ("--" ++ "k" ++ "=" ++ render_value (VBool true)) = true.
Proof.
  apply (proj2 (xla_flags_from_options_first
                  [("k", VBool true); ("l", VStr "x")]) "k" (VBool true)
               [("l", VStr "x")]).
  reflexivity.
Defined.

(** X16: the flag string of whatever the resolver returns starts with the
    three base flags, and with more than one slice it ends with the three
    multi-slice flags. *)
Theorem xla_flags_of_default_options instance_type num_slices backend d :
  default_xla_options instance_type num_slices backend = Ok d ->
  startswith (xla_flags_from_options d)
    "--xla_tpu_spmd_rng_bit_generator_unsafe=1 --xla_tpu_enable_latency_hiding_scheduler=true --xla_tpu_perform_spmd_cse_prevention=false"
    = true /\
  ((num_slices > 1)%Z ->
   exists front,
     xla_flags_from_options d = front ++
       " --xla_tpu_enable_megascale_barrier=true --xla_tpu_enable_data_parallel_all_reduce_opt=true --xla_tpu_data_parallel_opt_different_sized_ops=true").
Proof.
  intros H. apply default_xla_options_Ok in H as (_ & t & version & _ & _ & ->).
  split.
  - unfold startswith.
    destruct (overlay_of version ++ slices_overlay num_slices)%list
      as [|kv rest] eqn:E.
    + rewrite app_nil_r.
      change (xla_flags_from_options base_options)
        with ("--xla_tpu_spmd_rng_bit_generator_unsafe=1 --xla_tpu_enable_latency_hiding_scheduler=true --xla_tpu_perform_spmd_cse_prevention=false" ++ EmptyString).
      apply prefix_append.
    + rewrite xla_flags_from_options_app_base by discriminate.
      apply prefix_append.
  - intros Hn. unfold slices_overlay.
    assert (G : (num_slices >? 1)%Z = true)
      by (rewrite Z.gtb_ltb; apply Z.ltb_lt; lia).
    rewrite G, !app_assoc.
    rewrite xla_flags_map, map_app, join_app; [|discriminate|discriminate].
    eexists. reflexivity.
Qed.

Lemma xla_flags_of_default_options_witness :
  startswith
    (xla_flags_from_options (base_options ++ multislice_options)%list)
    "--xla_tpu_spmd_rng_bit_generator_unsafe=1 --xla_tpu_enable_latency_hiding_scheduler=true --xla_tpu_perform_spmd_cse_prevention=false"
    = true.
Proof.
  apply (proj1 (xla_flags_of_default_options "v3-8" 2 "tpu"
                  (base_options ++ multislice_options)%list eq_refl)).
Defined.

End SerialiserExtras.
